(** * Event sourcing core of [index.js]: event store, account aggregate,
      command handlers.

    The development follows the source top-down: the [EventStore] object with
    its [append] and [getEventsForAggregate] methods, the [Account] aggregate
    with [apply] and [loadFromHistory], and the [CommandHandler] methods.
    The HTTP adapter ([EventSourcingServer]) comes after them, from the
    parsed request on.  [console.log] and process start-up are left out.

    Modelling conventions.
    - JavaScript numbers that the handlers receive (amounts, initial
      balances) and the counters [eventId] and [version] are integers, [Z].
    - An object property may be absent; reading it gives [undefined].  A
      payload ([event.data]) is a record of the three properties the code
      ever reads, each optional ([None] is [undefined]).
    - Arithmetic on [undefined] gives [NaN], so a balance is a [number]:
      an integer or [NaN].
    - The store is a mutable object shared by the handlers; it is threaded
      explicitly: a method that mutates it returns the new store.
    - [new Date().toISOString()] is an input ([now]) of [append]. *)

From Stdlib Require Import ZArith Ascii String List Bool Lia Sorted.
Import ListNotations.
Local Open Scope Z_scope.
Local Open Scope list_scope.

(** ** JavaScript values used by the code *)

Inductive number : Type :=
| Num (z : Z)
| NaN.

(** [ToNumber] of a property read: [undefined] converts to [NaN]. *)
Definition toNumber (v : option Z) : number :=
  match v with
  | Some z => Num z
  | None => NaN
  end.

(** [a + b] and [a - b] on numbers. *)
Definition num_add (a b : number) : number :=
  match a, b with
  | Num x, Num y => Num (x + y)
  | _, _ => NaN
  end.

Definition num_sub (a b : number) : number :=
  match a, b with
  | Num x, Num y => Num (x - y)
  | _, _ => NaN
  end.

(** [a < b]: false as soon as one side is [NaN]. *)
Definition num_ltb (a b : number) : bool :=
  match a, b with
  | Num x, Num y => x <? y
  | _, _ => false
  end.

(** [v || 0] for a numeric property: [undefined] and [0] are falsy. *)
Definition or_zero (v : option Z) : Z :=
  match v with
  | Some z => if z =? 0 then 0 else z
  | None => 0
  end.

(** ** Events *)

Module Data.
(** The payload object literal: [{owner, initialBalance}], [{amount}]
    or [{}]. *)
Record t : Type := mk {
  owner : option string;
  initialBalance : option Z;
  amount : option Z
}.

Definition empty : t := mk None None None.
Definition created (o : string) (b : Z) : t := mk (Some o) (Some b) None.
Definition amountOf (a : Z) : t := mk None None (Some a).
End Data.

Module Event.
Record t : Type := mk {
  id : Z;
  type : string;
  aggregateId : string;
  data : Data.t;
  timestamp : string
}.
End Event.

(** ** Event store *)

Module EventStore.
Record t : Type := mk {
  events : list Event.t;
  eventId : Z
}.

(** [function EventStore()] *)
Definition new : t := mk [] 1.

(** [EventStore.prototype.append]: the event takes the current
    [eventId], the counter is incremented, the event is pushed at the end
    of [events] and returned. *)
Definition append (now : string) (this : t)
    (eventType aggregateId : string) (data : Data.t) : Event.t * t :=
  let event := Event.mk (eventId this) eventType aggregateId data now in
  (event, mk (events this ++ [event]) (eventId this + 1)).

(** The [for] loop of [getEventsForAggregate], from index [i] on, with
    the array [result] built so far. *)
Fixpoint getEventsForAggregate_loop (rest : list Event.t)
    (aggregateId : string) (result : list Event.t) : list Event.t :=
  match rest with
  | [] => result
  | e :: rest' =>
      if String.eqb (Event.aggregateId e) aggregateId
      then getEventsForAggregate_loop rest' aggregateId (result ++ [e])
      else getEventsForAggregate_loop rest' aggregateId result
  end.

(** [EventStore.prototype.getEventsForAggregate] *)
Definition getEventsForAggregate (this : t) (aggregateId : string)
    : list Event.t :=
  getEventsForAggregate_loop (events this) aggregateId [].

(** [EventStore.prototype.getAllEvents] *)
Definition getAllEvents (this : t) : list Event.t := events this.
End EventStore.

(** ** Account aggregate *)

Module Account.
Record t : Type := mk {
  id : string;
  balance : number;
  owner : option string;
  isActive : bool;
  version : Z
}.

(** [function Account(id)] *)
Definition new (id : string) : t := mk id (Num 0) (Some EmptyString) false 0.

(** [Account.prototype.apply]: [version] is incremented first, then the
    [if]/[else if] chain on [event.type]; there is no final [else]. *)
Definition apply (this : t) (event : Event.t) : t :=
  let this := mk (id this) (balance this) (owner this) (isActive this)
                 (version this + 1) in
  if String.eqb (Event.type event) "AccountCreated" then
    mk (id this)
       (Num (or_zero (Data.initialBalance (Event.data event))))
       (Data.owner (Event.data event))
       true
       (version this)
  else if String.eqb (Event.type event) "MoneyDeposited" then
    mk (id this)
       (num_add (balance this) (toNumber (Data.amount (Event.data event))))
       (owner this) (isActive this) (version this)
  else if String.eqb (Event.type event) "MoneyWithdrawn" then
    mk (id this)
       (num_sub (balance this) (toNumber (Data.amount (Event.data event))))
       (owner this) (isActive this) (version this)
  else if String.eqb (Event.type event) "AccountClosed" then
    mk (id this) (balance this) (owner this) false (version this)
  else this.

(** [Account.prototype.loadFromHistory] *)
Fixpoint loadFromHistory (this : t) (events : list Event.t) : t :=
  match events with
  | [] => this
  | e :: rest => loadFromHistory (apply this e) rest
  end.
End Account.

(** ** Command handlers *)

(** The object a handler returns: [{success: true, event}] or
    [{success: false, error}]. *)
Inductive Result : Type :=
| Accepted (event : Event.t)
| Rejected (error : string).

Definition success (r : Result) : bool :=
  match r with
  | Accepted _ => true
  | Rejected _ => false
  end.

(** The two error strings of the source, under the names the
    specification gives them. *)
Definition InvalidAmount : string := "Amount must be positive".
Definition InsufficientFunds : string := "Insufficient funds".

Module CommandHandler.
(** [CommandHandler.prototype.getAccountState] *)
Definition getAccountState (es : EventStore.t) (accountId : string)
    : Account.t :=
  let events := EventStore.getEventsForAggregate es accountId in
  Account.loadFromHistory (Account.new accountId) events.

(** [CommandHandler.prototype.createAccount]; the third argument may be
    omitted. *)
Definition createAccount (now : string) (es : EventStore.t)
    (accountId owner : string) (initialBalance : option Z)
    : Result * EventStore.t :=
  let (event, es') :=
    EventStore.append now es "AccountCreated" accountId
      (Data.created owner (or_zero initialBalance)) in
  (Accepted event, es').

(** [CommandHandler.prototype.deposit] *)
Definition deposit (now : string) (es : EventStore.t)
    (accountId : string) (amount : Z) : Result * EventStore.t :=
  if amount <=? 0 then (Rejected "Amount must be positive", es)
  else
    let (event, es') :=
      EventStore.append now es "MoneyDeposited" accountId
        (Data.amountOf amount) in
    (Accepted event, es').

(** [CommandHandler.prototype.withdraw] *)
Definition withdraw (now : string) (es : EventStore.t)
    (accountId : string) (amount : Z) : Result * EventStore.t :=
  if amount <=? 0 then (Rejected "Amount must be positive", es)
  else
    let account := getAccountState es accountId in
    if num_ltb (Account.balance account) (Num amount)
    then (Rejected "Insufficient funds", es)
    else
      let (event, es') :=
        EventStore.append now es "MoneyWithdrawn" accountId
          (Data.amountOf amount) in
      (Accepted event, es').

(** [CommandHandler.prototype.closeAccount] *)
Definition closeAccount (now : string) (es : EventStore.t)
    (accountId : string) : Result * EventStore.t :=
  let (event, es') :=
    EventStore.append now es "AccountClosed" accountId Data.empty in
  (Accepted event, es').
End CommandHandler.

(** A command is a call of one of the four mutating handler methods. *)
Inductive Command : Type :=
| CreateAccount (accountId owner : string) (initialBalance : option Z)
| Deposit (accountId : string) (amount : Z)
| Withdraw (accountId : string) (amount : Z)
| CloseAccount (accountId : string).

Definition entityOf (c : Command) : string :=
  match c with
  | CreateAccount a _ _ | Deposit a _ | Withdraw a _ | CloseAccount a => a
  end.

(** Dispatch of a command to the handler method of the same name, as the
    POST routes do. *)
Definition handle (now : string) (c : Command) (es : EventStore.t)
    : Result * EventStore.t :=
  match c with
  | CreateAccount a o b => CommandHandler.createAccount now es a o b
  | Deposit a n => CommandHandler.deposit now es a n
  | Withdraw a n => CommandHandler.withdraw now es a n
  | CloseAccount a => CommandHandler.closeAccount now es a
  end.

(** ** Vocabulary of the properties *)

(** The four event types [apply] has a branch for. *)
Definition knownTypes : list string :=
  ["AccountCreated"; "MoneyDeposited"; "MoneyWithdrawn"; "AccountClosed"]%string.

Definition isKnownType (ty : string) : bool :=
  existsb (String.eqb ty) knownTypes.

(** How a projection call can end, in the specification's terms: with a
    state, or with the [MalformedEvent] condition.  [loadFromHistory] has no
    [throw] and no error return, so the call of the source always ends with
    the state it built. *)
Inductive Projection : Type :=
| Projected (state : Account.t)
| MalformedEvent.

Definition project (entityId : string) (events : list Event.t) : Projection :=
  Projected (Account.loadFromHistory (Account.new entityId) events).

(** The state [a] with its version counter replaced. *)
Definition withVersion (a : Account.t) (v : Z) : Account.t :=
  Account.mk (Account.id a) (Account.balance a) (Account.owner a)
             (Account.isActive a) v.

(** Stores the program can be in: the fresh store, and any store obtained
    by a call of [append]. *)
Inductive reachable : EventStore.t -> Prop :=
| reachable_new : reachable EventStore.new
| reachable_append (es : EventStore.t) (now eventType aggregateId : string)
    (data : Data.t) :
    reachable es ->
    reachable (snd (EventStore.append now es eventType aggregateId data)).

(** The test of the loop of [getEventsForAggregate]. *)
Definition belongsTo (aggregateId : string) (e : Event.t) : bool :=
  String.eqb (Event.aggregateId e) aggregateId.

(** Order of two events by their [id]. *)
Definition id_lt (e1 e2 : Event.t) : Prop := Event.id e1 < Event.id e2.

(** [accepted_run cs es]: starting from the fresh store, the commands [cs]
    (each with the time of its call) were handled in order, every one of
    them returned [success: true], and the store is now [es]. *)
Inductive accepted_run : list (string * Command) -> EventStore.t -> Prop :=
| accepted_nil : accepted_run [] EventStore.new
| accepted_snoc (cs : list (string * Command)) (es es' : EventStore.t)
    (now : string) (c : Command) (r : Result) :
    accepted_run cs es ->
    handle now c es = (r, es') ->
    success r = true ->
    accepted_run (cs ++ [(now, c)]) es'.


(** What every reachable store satisfies: the counter is above every
    stored [id], and the array is sorted by [id]. *)
Definition store_inv (es : EventStore.t) : Prop :=
  Forall (fun e => Event.id e < EventStore.eventId es) (EventStore.events es)
  /\ StronglySorted id_lt (EventStore.events es).

(** The rejection of unknown kinds as the specification words it, at one
    history: if the history holds an event of unknown type, projecting it
    ends with [MalformedEvent]. *)
Definition rejects_unknown_kinds (entityId : string) (events : list Event.t)
    : Prop :=
  (exists e, In e events /\ ~ In (Event.type e) knownTypes) ->
  project entityId events = MalformedEvent.

(** The state of an entity no event has touched. *)
Definition zeroState (entityId : string) : Account.t :=
  Account.mk entityId (Num 0) (Some EmptyString) false 0.

(** Sample data for the examples. *)
Definition ev_created : Event.t :=
  Event.mk 1 "AccountCreated" "ACC001" (Data.created "John Doe" 100) "t1".
Definition ev_interest : Event.t :=
  Event.mk 2 "InterestPaid" "ACC001" (Data.amountOf 5) "t2".

(** The store after the first three calls of the README's walk-through:
    create ACC001 with 100, deposit 50, withdraw 30. *)
Definition es_sample : EventStore.t :=
  let es := snd (handle "t1" (CreateAccount "ACC001" "John Doe" (Some 100))
                   EventStore.new) in
  let es := snd (handle "t2" (Deposit "ACC001" 50) es) in
  snd (handle "t3" (Withdraw "ACC001" 30) es).

(** ** HTTP adapter

    The adapter is modelled from the point where Node hands over a request:
    its method, the [pathname] of its parsed URL and, for a POST, the outcome
    of [JSON.parse] on the collected body.  A response is the status code
    given to [writeHead] and the value given to [JSON.stringify] (kept as a
    value, not rendered); the four headers set on every response, the
    request log and the socket are left out.

    Conventions: a parsed body is a JSON object whose [accountId] and
    [owner], when present, are strings and whose [initialBalance] and
    [amount], when present, are integers; a character of a [pathname] is a
    code unit below 256. *)

(** [account.toJSON()]: the five fields, in the order of the literal. *)
Record AccountJSON : Type := mkAccountJSON {
  json_id : string;
  json_owner : option string;
  json_balance : number;
  json_isActive : bool;
  json_version : Z
}.

Definition toJSON (this : Account.t) : AccountJSON :=
  mkAccountJSON (Account.id this) (Account.owner this) (Account.balance this)
                (Account.isActive this) (Account.version this).

Module PostData.
(** The object [JSON.parse(body)] returned. *)
Record t : Type := mk {
  accountId : option string;
  owner : option string;
  initialBalance : option Z;
  amount : option Z
}.
End PostData.

(** [!v] for a string property: [undefined] and the empty string are
    falsy. *)
Definition falsy_string (v : option string) : bool :=
  match v with
  | Some s => String.eqb s ""
  | None => true
  end.

(** [!v] for a numeric property: [undefined] and [0] are falsy. *)
Definition falsy_number (v : option Z) : bool :=
  match v with
  | Some z => z =? 0
  | None => true
  end.

(** The value of a property that a guard has found truthy. *)
Definition str (v : option string) : string :=
  match v with
  | Some s => s
  | None => EmptyString
  end.

Definition num (v : option Z) : Z :=
  match v with
  | Some z => z
  | None => 0
  end.

(** The value a handler serializes. *)
Inductive Body : Type :=
| ErrorBody (error : string)
| ResultBody (result : Result)
| AccountBody (account : AccountJSON)
| EventsBody (events : list Event.t)
| AllEventsBody (events : list Event.t) (count : nat).

Record Response : Type := mkResponse {
  statusCode : Z;
  body : option Body
}.

Inductive ParsedBody : Type :=
| InvalidJSON
| JSONObject (data : PostData.t).

Record Request : Type := mkRequest {
  method : string;
  pathname : string;
  parsed : ParsedBody
}.

(** [s] without its prefix [p], when it has that prefix. *)
Fixpoint stripPrefix (p s : string) : option string :=
  match p with
  | EmptyString => Some s
  | String a p' =>
      match s with
      | String b s' => if Ascii.eqb a b then stripPrefix p' s' else None
      | EmptyString => None
      end
  end.

(** The characters the [.] of a regular expression does not match. *)
Definition isLineTerminator (c : Ascii.ascii) : bool :=
  Ascii.eqb c "010"%char || Ascii.eqb c "013"%char.

(** [s.match(/^p.+/)] for a literal [p]: [s] starts with [p], and the
    next character exists and is matched by [.]. *)
Definition matchesPrefixDotPlus (p s : string) : bool :=
  match stripPrefix p s with
  | Some (String c _) => negb (isLineTerminator c)
  | _ => false
  end.

(** [s.split('/')] *)
Fixpoint split_slash (s : string) : list string :=
  match s with
  | EmptyString => [EmptyString]
  | String c s' =>
      if Ascii.eqb c "/"%char then EmptyString :: split_slash s'
      else
        match split_slash s' with
        | seg :: segs => String c seg :: segs
        | [] => [String c EmptyString]
        end
  end.

(** [pathname.split('/')[2]]; the index exists on both paths that read
    it, so the default is never returned there. *)
Definition segment2 (pathname : string) : string :=
  nth 2 (split_slash pathname) EmptyString.

Module EventSourcingServer.
(** [EventSourcingServer.prototype.sendResponse] *)
Definition sendResponse (statusCode : Z) (data : Body) : Response :=
  mkResponse statusCode (Some data).

(** [EventSourcingServer.prototype.handleCreateAccount] *)
Definition handleCreateAccount (now : string) (es : EventStore.t)
    (data : PostData.t) : Response * EventStore.t :=
  if falsy_string (PostData.accountId data)
     || falsy_string (PostData.owner data)
  then (sendResponse 400 (ErrorBody "accountId and owner are required"), es)
  else
    let (result, es') :=
      CommandHandler.createAccount now es
        (str (PostData.accountId data)) (str (PostData.owner data))
        (Some (or_zero (PostData.initialBalance data))) in
    (sendResponse 201 (ResultBody result), es').

(** [EventSourcingServer.prototype.handleDeposit] *)
Definition handleDeposit (now : string) (es : EventStore.t)
    (data : PostData.t) : Response * EventStore.t :=
  if falsy_string (PostData.accountId data)
     || falsy_number (PostData.amount data)
  then (sendResponse 400 (ErrorBody "accountId and amount are required"), es)
  else
    let (result, es') :=
      CommandHandler.deposit now es
        (str (PostData.accountId data)) (num (PostData.amount data)) in
    if success result then (sendResponse 200 (ResultBody result), es')
    else (sendResponse 400 (ResultBody result), es').

(** [EventSourcingServer.prototype.handleWithdraw] *)
Definition handleWithdraw (now : string) (es : EventStore.t)
    (data : PostData.t) : Response * EventStore.t :=
  if falsy_string (PostData.accountId data)
     || falsy_number (PostData.amount data)
  then (sendResponse 400 (ErrorBody "accountId and amount are required"), es)
  else
    let (result, es') :=
      CommandHandler.withdraw now es
        (str (PostData.accountId data)) (num (PostData.amount data)) in
    if success result then (sendResponse 200 (ResultBody result), es')
    else (sendResponse 400 (ResultBody result), es').

(** [EventSourcingServer.prototype.handleCloseAccount] *)
Definition handleCloseAccount (now : string) (es : EventStore.t)
    (data : PostData.t) : Response * EventStore.t :=
  if falsy_string (PostData.accountId data)
  then (sendResponse 400 (ErrorBody "accountId is required"), es)
  else
    let (result, es') :=
      CommandHandler.closeAccount now es (str (PostData.accountId data)) in
    (sendResponse 200 (ResultBody result), es').

(** [EventSourcingServer.prototype.handleGetAccount] *)
Definition handleGetAccount (es : EventStore.t) (accountId : string)
    : Response :=
  let account := CommandHandler.getAccountState es accountId in
  sendResponse 200 (AccountBody (toJSON account)).

(** [EventSourcingServer.prototype.handleGetAccountEvents] *)
Definition handleGetAccountEvents (es : EventStore.t) (accountId : string)
    : Response :=
  let events := EventStore.getEventsForAggregate es accountId in
  sendResponse 200 (EventsBody events).

(** [EventSourcingServer.prototype.handleGetAllEvents] *)
Definition handleGetAllEvents (es : EventStore.t) : Response :=
  let events := EventStore.getAllEvents es in
  sendResponse 200 (AllEventsBody events (length events)).

(** [EventSourcingServer.prototype.handleRequest]; for a POST, the body of
    the [end] callback. *)
Definition handleRequest (now : string) (es : EventStore.t) (req : Request)
    : Response * EventStore.t :=
  if String.eqb (method req) "OPTIONS" then (mkResponse 200 None, es)
  else if String.eqb (method req) "GET" then
    if String.eqb (pathname req) "/events" then (handleGetAllEvents es, es)
    else if matchesPrefixDotPlus "/events/" (pathname req) then
      (handleGetAccountEvents es (segment2 (pathname req)), es)
    else if matchesPrefixDotPlus "/account/" (pathname req) then
      (handleGetAccount es (segment2 (pathname req)), es)
    else (sendResponse 404 (ErrorBody "Not found"), es)
  else if String.eqb (method req) "POST" then
    match parsed req with
    | InvalidJSON => (sendResponse 400 (ErrorBody "Invalid JSON"), es)
    | JSONObject data =>
        if String.eqb (pathname req) "/account/create" then
          handleCreateAccount now es data
        else if String.eqb (pathname req) "/account/deposit" then
          handleDeposit now es data
        else if String.eqb (pathname req) "/account/withdraw" then
          handleWithdraw now es data
        else if String.eqb (pathname req) "/account/close" then
          handleCloseAccount now es data
        else (sendResponse 404 (ErrorBody "Not found"), es)
    end
  else (sendResponse 405 (ErrorBody "Method not allowed"), es).
End EventSourcingServer.

(** Stores the running server can hold: the one made by
    [new EventSourcingServer], and the one left by any request. *)
Inductive served : EventStore.t -> Prop :=
| served_new : served EventStore.new
| served_request (es : EventStore.t) (now : string) (req : Request) :
    served es ->
    served (snd (EventSourcingServer.handleRequest now es req)).

(** An event as one of the four command handlers builds it: a known type
    with the payload of that type, amounts being positive. *)
Definition builtByHandler (e : Event.t) : Prop :=
  (Event.type e = "AccountCreated"%string
   /\ exists o b, Event.data e = Data.created o b)
  \/ (Event.type e = "MoneyDeposited"%string
      /\ exists a, 0 < a /\ Event.data e = Data.amountOf a)
  \/ (Event.type e = "MoneyWithdrawn"%string
      /\ exists a, 0 < a /\ Event.data e = Data.amountOf a)
  \/ (Event.type e = "AccountClosed"%string /\ Event.data e = Data.empty).

(** Stores left by any sequence of commands, accepted or not. *)
Inductive commanded : EventStore.t -> Prop :=
| commanded_new : commanded EventStore.new
| commanded_handle (es : EventStore.t) (now : string) (c : Command) :
    commanded es ->
    commanded (snd (handle now c es)).

(** A request of the README: create ACC002 for Jane Roe with 10. *)
Definition req_create : Request :=
  mkRequest "POST" "/account/create"
    (JSONObject (PostData.mk (Some "ACC002"%string) (Some "Jane Roe"%string)
                   (Some 10) None)).

(** ** Strongly sorted lists *)

Section Sorted.

Context {A : Type} (R : A -> A -> Prop).

Lemma StronglySorted_snoc (l : list A) (x : A) :
  StronglySorted R l -> Forall (fun y => R y x) l ->
  StronglySorted R (l ++ [x]).
Proof.
  induction 1 as [|a l Hl IH Ha]; intros Hall; simpl.
  - repeat constructor.
  - inversion Hall as [|? ? Hax Hlx]; subst.
    constructor; [now apply IH|].
    apply Forall_app; split; [assumption|now constructor].
Qed.

Lemma StronglySorted_filter (f : A -> bool) (l : list A) :
  StronglySorted R l -> StronglySorted R (filter f l).
Proof.
  induction 1 as [|a l Hl IH Ha]; simpl; [constructor|].
  destruct (f a); [|assumption].
  constructor; [assumption|].
  rewrite Forall_forall in *. intros y Hy.
  apply filter_In in Hy. now apply Ha.
Qed.

Lemma StronglySorted_nth_error (l : list A) :
  StronglySorted R l ->
  forall (i j : nat) (x y : A),
    nth_error l i = Some x -> nth_error l j = Some y -> (i < j)%nat ->
    R x y.
Proof.
  induction 1 as [|a l Hl IH Ha]; intros i j x y Hi Hj Hlt.
  - destruct i; discriminate.
  - destruct j as [|j]; [lia|]. simpl in Hj.
    destruct i as [|i]; simpl in Hi.
    + injection Hi as <-.
      rewrite Forall_forall in Ha. apply Ha.
      eapply nth_error_In; eassumption.
    + apply (IH i j); [assumption..|lia].
Qed.

End Sorted.

(** ** Lemmas on the event store *)

Lemma getEventsForAggregate_loop_filter (aggregateId : string)
    (rest result : list Event.t) :
  EventStore.getEventsForAggregate_loop rest aggregateId result
  = result ++ filter (belongsTo aggregateId) rest.
Proof.
  revert result.
  induction rest as [|e rest IH]; intros result; simpl.
  - now rewrite app_nil_r.
  - unfold belongsTo at 1.
    destruct (String.eqb (Event.aggregateId e) aggregateId).
    + rewrite IH, <- app_assoc. reflexivity.
    + apply IH.
Qed.

Lemma getEventsForAggregate_filter (es : EventStore.t) (aggregateId : string) :
  EventStore.getEventsForAggregate es aggregateId
  = filter (belongsTo aggregateId) (EventStore.events es).
Proof.
  unfold EventStore.getEventsForAggregate.
  now rewrite getEventsForAggregate_loop_filter.
Qed.

Lemma getEventsForAggregate_append (now : string) (es : EventStore.t)
    (eventType aggregateId : string) (data : Data.t) (accountId : string) :
  let (event, es') := EventStore.append now es eventType aggregateId data in
  EventStore.getEventsForAggregate es' accountId
  = EventStore.getEventsForAggregate es accountId
    ++ (if String.eqb aggregateId accountId then [event] else []).
Proof.
  simpl. rewrite !getEventsForAggregate_filter. simpl.
  rewrite filter_app. simpl. unfold belongsTo at 2. simpl.
  now destruct (String.eqb aggregateId accountId).
Qed.

Lemma store_inv_new : store_inv EventStore.new.
Proof. split; constructor. Qed.

Lemma store_inv_append (now : string) (es : EventStore.t)
    (eventType aggregateId : string) (data : Data.t) :
  store_inv es ->
  store_inv (snd (EventStore.append now es eventType aggregateId data)).
Proof.
  intros [Hlt Hsorted]. split; simpl.
  - apply Forall_app; split.
    + eapply Forall_impl; [|exact Hlt]. simpl. intros e He. lia.
    + constructor; [simpl; lia|constructor].
  - apply StronglySorted_snoc; [assumption|].
    eapply Forall_impl; [|exact Hlt]. intros e He. exact He.
Qed.

Lemma reachable_store_inv (es : EventStore.t) : reachable es -> store_inv es.
Proof.
  induction 1; [apply store_inv_new|now apply store_inv_append].
Qed.

(** ** Lemmas on the account aggregate *)

Lemma loadFromHistory_app (a : Account.t) (l1 l2 : list Event.t) :
  Account.loadFromHistory a (l1 ++ l2)
  = Account.loadFromHistory (Account.loadFromHistory a l1) l2.
Proof.
  revert a. induction l1 as [|e l1 IH]; intros a; simpl; [reflexivity|apply IH].
Qed.

Lemma version_apply (a : Account.t) (e : Event.t) :
  Account.version (Account.apply a e) = Account.version a + 1.
Proof.
  unfold Account.apply. simpl.
  repeat match goal with |- context [if ?b then _ else _] => destruct b end;
    reflexivity.
Qed.

Lemma id_apply (a : Account.t) (e : Event.t) :
  Account.id (Account.apply a e) = Account.id a.
Proof.
  unfold Account.apply. simpl.
  repeat match goal with |- context [if ?b then _ else _] => destruct b end;
    reflexivity.
Qed.

Lemma version_loadFromHistory (a : Account.t) (l : list Event.t) :
  Account.version (Account.loadFromHistory a l)
  = Account.version a + Z.of_nat (length l).
Proof.
  revert a. induction l as [|e l IH]; intros a.
  - simpl. lia.
  - cbn [Account.loadFromHistory length]. rewrite IH, version_apply. lia.
Qed.

Lemma isKnownType_false (ty : string) :
  isKnownType ty = false <->
  ty <> "AccountCreated"%string /\ ty <> "MoneyDeposited"%string
  /\ ty <> "MoneyWithdrawn"%string /\ ty <> "AccountClosed"%string.
Proof.
  unfold isKnownType, knownTypes. simpl.
  rewrite !orb_false_iff, !String.eqb_neq. tauto.
Qed.

Lemma apply_unknown (a : Account.t) (e : Event.t) :
  isKnownType (Event.type e) = false ->
  Account.apply a e = withVersion a (Account.version a + 1).
Proof.
  rewrite isKnownType_false. intros (H1 & H2 & H3 & H4).
  apply String.eqb_neq in H1, H2, H3, H4.
  unfold Account.apply. now rewrite H1, H2, H3, H4.
Qed.

Lemma apply_withVersion (a : Account.t) (v : Z) (e : Event.t) :
  Account.apply (withVersion a v) e = withVersion (Account.apply a e) (v + 1).
Proof.
  unfold Account.apply, withVersion. simpl.
  repeat match goal with |- context [if ?b then _ else _] => destruct b end;
    reflexivity.
Qed.

Lemma loadFromHistory_withVersion (a : Account.t) (v : Z) (l : list Event.t) :
  Account.loadFromHistory (withVersion a v) l
  = withVersion (Account.loadFromHistory a l) (v + Z.of_nat (length l)).
Proof.
  revert a v. induction l as [|e l IH]; intros a v.
  - simpl. now rewrite Z.add_0_r.
  - cbn [Account.loadFromHistory length].
    rewrite apply_withVersion, IH. f_equal. lia.
Qed.

Lemma withVersion_withVersion (a : Account.t) (v w : Z) :
  withVersion (withVersion a v) w = withVersion a w.
Proof. reflexivity. Qed.

Lemma withVersion_version (a : Account.t) :
  withVersion a (Account.version a) = a.
Proof. now destruct a. Qed.

(** Events of unknown type can be dropped from a history: only the version
    counter sees them. *)
Lemma loadFromHistory_skips_unknown (a : Account.t) (l : list Event.t) :
  Account.loadFromHistory a l
  = withVersion
      (Account.loadFromHistory a
         (filter (fun e => isKnownType (Event.type e)) l))
      (Account.version a + Z.of_nat (length l)).
Proof.
  revert a. induction l as [|e l IH]; intros a.
  - simpl. now rewrite Z.add_0_r, withVersion_version.
  - cbn [Account.loadFromHistory filter length].
    destruct (isKnownType (Event.type e)) eqn:Hk.
    + cbn [Account.loadFromHistory]. rewrite IH, version_apply.
      f_equal. lia.
    + rewrite (apply_unknown _ _ Hk), loadFromHistory_withVersion, IH.
      rewrite withVersion_withVersion. f_equal. lia.
Qed.

Lemma getAccountState_append (now : string) (es : EventStore.t)
    (eventType aggregateId : string) (data : Data.t) (accountId : string) :
  let (event, es') := EventStore.append now es eventType aggregateId data in
  CommandHandler.getAccountState es' accountId
  = if String.eqb aggregateId accountId
    then Account.apply (CommandHandler.getAccountState es accountId) event
    else CommandHandler.getAccountState es accountId.
Proof.
  pose proof (getEventsForAggregate_append now es eventType aggregateId data
                accountId) as H.
  destruct (EventStore.append now es eventType aggregateId data) as [ev es'].
  unfold CommandHandler.getAccountState. rewrite H.
  destruct (String.eqb aggregateId accountId).
  - now rewrite loadFromHistory_app.
  - now rewrite app_nil_r.
Qed.

Lemma isKnownType_In (ty : string) :
  isKnownType ty = true <-> In ty knownTypes.
Proof.
  unfold isKnownType. rewrite existsb_exists. split.
  - intros (x & Hx & Heq). apply String.eqb_eq in Heq. now subst.
  - intros H. exists ty. split; [assumption|apply String.eqb_refl].
Qed.

Lemma isKnownType_not_In (ty : string) :
  isKnownType ty = false <-> ~ In ty knownTypes.
Proof.
  rewrite <- isKnownType_In. now destruct (isKnownType ty).
Qed.

(** ** Scenarios of the specification, evaluated *)

Example scenario_AB :
  let es0 := EventStore.new in
  let es1 := snd (handle "t1" (CreateAccount "ACC001" "John Doe" (Some 100)) es0) in
  let es2 := snd (handle "t2" (Deposit "ACC001" 50) es1) in
  let es3 := snd (handle "t3" (Withdraw "ACC001" 30) es2) in
  CommandHandler.getAccountState es1 "ACC001"
    = Account.mk "ACC001" (Num 100) (Some "John Doe"%string) true 1
  /\ CommandHandler.getAccountState es3 "ACC001"
    = Account.mk "ACC001" (Num 120) (Some "John Doe"%string) true 3.
Proof. split; reflexivity. Qed.

Example scenario_E :
  let es := snd (handle "t4" (CloseAccount "ACC001") es_sample) in
  let (r, es') := handle "t5" (Deposit "ACC001" 10) es in
  Account.isActive (CommandHandler.getAccountState es "ACC001") = false
  /\ success r = true
  /\ Account.balance (CommandHandler.getAccountState es' "ACC001") = Num 130.
Proof. repeat split. Qed.

(** ** The projector and unknown event kinds *)

(** A history with an event of a kind [apply] has no branch for: the
    account is created with 100, then "InterestPaid" is folded. *)
Example project_created_then_interest :
  project "ACC001" [ev_created; ev_interest]
  = Projected (Account.mk "ACC001" (Num 100) (Some "John Doe"%string) true 2).
Proof. reflexivity. Qed.

(** C1, as the specification states it, fails: the history "created, then
    an event of the unknown kind InterestPaid" holds an unknown kind, and
    projecting it does not end with [MalformedEvent]. *)
Lemma unknown_kind_is_not_rejected :
  ~ rejects_unknown_kinds "ACC001" [ev_created; ev_interest].
Proof.
  intros H.
  assert (Hex : exists e, In e [ev_created; ev_interest]
                          /\ ~ In (Event.type e) knownTypes).
  { exists ev_interest. split; [right; now left|].
    apply isKnownType_not_In. reflexivity. }
  specialize (H Hex). discriminate H.
Qed.

(** C1, amended: projecting any history, also one that holds events of
    unknown kinds, ends with a state and never with [MalformedEvent]; that
    state is the one the history without its unknown events projects to,
    except that [version] counts every event of the full history. *)
Theorem project_skips_unknown_kinds (entityId : string)
    (events : list Event.t) :
  project entityId events
  = Projected
      (withVersion
         (Account.loadFromHistory (Account.new entityId)
            (filter (fun e => isKnownType (Event.type e)) events))
         (Z.of_nat (length events))).
Proof.
  unfold project. f_equal. apply loadFromHistory_skips_unknown.
Qed.

(** C10: applying an event whose type is none of the four known ones
    increments [version] by one and leaves [id], [owner], [balance] and
    [isActive] as they were. *)
Theorem apply_unknown_type_frame (a : Account.t) (e : Event.t) :
  ~ In (Event.type e) knownTypes ->
  Account.version (Account.apply a e) = Account.version a + 1
  /\ Account.id (Account.apply a e) = Account.id a
  /\ Account.owner (Account.apply a e) = Account.owner a
  /\ Account.balance (Account.apply a e) = Account.balance a
  /\ Account.isActive (Account.apply a e) = Account.isActive a.
Proof.
  intros H. apply isKnownType_not_In in H.
  rewrite (apply_unknown _ _ H). repeat split.
Qed.

Lemma apply_unknown_type_frame_witness :
  let a := CommandHandler.getAccountState es_sample "ACC001" in
  ~ In (Event.type ev_interest) knownTypes
  /\ Account.version (Account.apply a ev_interest) = 4
  /\ Account.balance (Account.apply a ev_interest) = Num 120.
Proof.
  assert (H : ~ In (Event.type ev_interest) knownTypes).
  { apply isKnownType_not_In. reflexivity. }
  split; [exact H|].
  pose proof (apply_unknown_type_frame
                (CommandHandler.getAccountState es_sample "ACC001")
                ev_interest H) as (Hv & _ & _ & Hb & _).
  split; [rewrite Hv|rewrite Hb]; reflexivity.
Defined.

(** ** Version and event count *)

(** C4: the version of the current state of an entity is the number of
    events stored for it; and applying one event, of whatever type,
    increments the version by exactly one. *)
Theorem version_counts_events (es : EventStore.t) (accountId : string) :
  Account.version (CommandHandler.getAccountState es accountId)
  = Z.of_nat (length (EventStore.getEventsForAggregate es accountId))
  /\ forall (a : Account.t) (e : Event.t),
       Account.version (Account.apply a e) = Account.version a + 1.
Proof.
  split; [|apply version_apply].
  unfold CommandHandler.getAccountState.
  now rewrite version_loadFromHistory.
Qed.

Lemma version_zero_iff_no_events (es : EventStore.t) (accountId : string) :
  Account.version (CommandHandler.getAccountState es accountId) = 0
  <-> EventStore.getEventsForAggregate es accountId = [].
Proof.
  unfold CommandHandler.getAccountState. rewrite version_loadFromHistory.
  destruct (EventStore.getEventsForAggregate es accountId); simpl.
  - tauto.
  - split; [lia|discriminate].
Qed.

(** C9: for an entity with no event in the log, the current state is the
    zero state (balance 0, owner empty, inactive, version 0), an ordinary
    return value of [getAccountState]. *)
Theorem getAccountState_no_events (es : EventStore.t) (accountId : string) :
  (forall e, In e (EventStore.events es) -> Event.aggregateId e <> accountId) ->
  CommandHandler.getAccountState es accountId = zeroState accountId.
Proof.
  intros Hnone. unfold CommandHandler.getAccountState.
  rewrite getEventsForAggregate_filter.
  replace (filter (belongsTo accountId) (EventStore.events es)) with
    (@nil Event.t); [reflexivity|].
  symmetry. induction (EventStore.events es) as [|e l IH]; [reflexivity|].
  simpl. unfold belongsTo at 1.
  destruct (String.eqb_spec (Event.aggregateId e) accountId) as [Heq|Hne].
  - exfalso. apply (Hnone e); [now left|assumption].
  - apply IH. intros e' He'. apply Hnone. now right.
Qed.

Lemma getAccountState_no_events_witness :
  CommandHandler.getAccountState es_sample "ACC002"
  = Account.mk "ACC002" (Num 0) (Some EmptyString) false 0.
Proof.
  apply (getAccountState_no_events es_sample "ACC002").
  intros e He. simpl in He.
  destruct He as [<-|[<-|[<-|[]]]]; simpl; discriminate.
Defined.

(** ** The event store: order of the log and reads by entity *)

(** C7: in a store reached by calls of [append], an event appended before
    another one (one at a smaller index of [events]) has the strictly
    smaller [id]; hence two different positions never hold the same [id]. *)
Theorem ids_increase_in_append_order (es : EventStore.t) :
  reachable es ->
  forall (i j : nat) (e1 e2 : Event.t),
    nth_error (EventStore.getAllEvents es) i = Some e1 ->
    nth_error (EventStore.getAllEvents es) j = Some e2 ->
    ((i < j)%nat -> Event.id e1 < Event.id e2)
    /\ (i <> j -> Event.id e1 <> Event.id e2).
Proof.
  intros Hreach i j e1 e2 Hi Hj.
  destruct (reachable_store_inv es Hreach) as [_ Hsorted].
  pose proof (StronglySorted_nth_error id_lt _ Hsorted) as Hord.
  unfold id_lt, EventStore.getAllEvents in *.
  split.
  - intros Hlt. now apply (Hord i j).
  - intros Hne.
    destruct (Nat.lt_total i j) as [Hlt|[Heq|Hgt]]; [|contradiction|].
    + specialize (Hord i j e1 e2 Hi Hj Hlt). lia.
    + specialize (Hord j i e2 e1 Hj Hi Hgt). lia.
Qed.

Lemma reachable_handle (now : string) (c : Command) (es : EventStore.t) :
  reachable es -> reachable (snd (handle now c es)).
Proof.
  intros Hreach.
  destruct c as [a o b|a n|a n|a]; simpl.
  - apply reachable_append, Hreach.
  - unfold CommandHandler.deposit.
    destruct (n <=? 0); [exact Hreach|apply reachable_append, Hreach].
  - unfold CommandHandler.withdraw.
    destruct (n <=? 0); [exact Hreach|].
    destruct (num_ltb _ _); [exact Hreach|apply reachable_append, Hreach].
  - apply reachable_append, Hreach.
Defined.

Lemma reachable_es_sample : reachable es_sample.
Proof.
  unfold es_sample. cbv zeta.
  do 3 apply reachable_handle. apply reachable_new.
Defined.

Lemma ids_increase_in_append_order_witness :
  exists e1 e2,
    nth_error (EventStore.getAllEvents es_sample) 0 = Some e1
    /\ nth_error (EventStore.getAllEvents es_sample) 2 = Some e2
    /\ Event.id e1 < Event.id e2.
Proof.
  eexists. eexists.
  split; [reflexivity|]. split; [reflexivity|].
  apply (ids_increase_in_append_order es_sample reachable_es_sample 0 2);
    [reflexivity|reflexivity|lia].
Defined.

(** The event [append] returns is above every event already stored. *)
Lemma append_id_above (es : EventStore.t) (now eventType aggregateId : string)
    (data : Data.t) :
  reachable es ->
  Forall (fun e => Event.id e
                   < Event.id (fst (EventStore.append now es eventType
                                      aggregateId data)))
         (EventStore.events es).
Proof.
  intros Hreach. destruct (reachable_store_inv es Hreach) as [Hlt _].
  exact Hlt.
Qed.

(** C8: [getEventsForAggregate] returns exactly the events of the log
    whose [aggregateId] is the one asked for, in the order of the log; in a
    reachable store that is the ascending order of [id]; and for an entity
    without events the result is the empty array. *)
Theorem getEventsForAggregate_spec (es : EventStore.t) (aggregateId : string) :
  reachable es ->
  EventStore.getEventsForAggregate es aggregateId
  = filter (fun e => String.eqb (Event.aggregateId e) aggregateId)
      (EventStore.getAllEvents es)
  /\ (forall e, In e (EventStore.getEventsForAggregate es aggregateId)
                <-> In e (EventStore.getAllEvents es)
                    /\ Event.aggregateId e = aggregateId)
  /\ StronglySorted id_lt (EventStore.getEventsForAggregate es aggregateId)
  /\ ((forall e, In e (EventStore.getAllEvents es) ->
                 Event.aggregateId e <> aggregateId) ->
      EventStore.getEventsForAggregate es aggregateId = []).
Proof.
  intros Hreach. rewrite getEventsForAggregate_filter.
  unfold EventStore.getAllEvents.
  change (fun e => String.eqb (Event.aggregateId e) aggregateId)
    with (belongsTo aggregateId).
  split; [reflexivity|]. split; [|split].
  - intros e. rewrite filter_In. unfold belongsTo.
    now rewrite String.eqb_eq.
  - apply StronglySorted_filter.
    now destruct (reachable_store_inv es Hreach).
  - intros Hnone.
    induction (EventStore.events es) as [|e l IH]; [reflexivity|].
    simpl. unfold belongsTo at 1.
    destruct (String.eqb_spec (Event.aggregateId e) aggregateId) as [Heq|Hne].
    + exfalso. apply (Hnone e); [now left|assumption].
    + apply IH. intros e' He'. apply Hnone. now right.
Qed.

Lemma getEventsForAggregate_spec_witness :
  length (EventStore.getEventsForAggregate es_sample "ACC001") = 3%nat
  /\ StronglySorted id_lt (EventStore.getEventsForAggregate es_sample "ACC001")
  /\ EventStore.getEventsForAggregate es_sample "ACC002" = [].
Proof.
  split; [reflexivity|]. split.
  - exact (proj1 (proj2 (proj2
      (getEventsForAggregate_spec es_sample "ACC001" reachable_es_sample)))).
  - apply (proj2 (proj2 (proj2
      (getEventsForAggregate_spec es_sample "ACC002" reachable_es_sample)))).
    intros e He. simpl in He.
    destruct He as [<-|[<-|[<-|[]]]]; simpl; discriminate.
Defined.

(** ** Command handlers *)

(** C6: [deposit] rejects with [InvalidAmount] exactly when
    [amount <= 0], leaving the store as it was; otherwise it appends exactly
    one [MoneyDeposited] event for the account, carrying the amount, and
    returns that event as a success. *)
Theorem deposit_cases (now : string) (es : EventStore.t)
    (accountId : string) (amount : Z) :
  (fst (CommandHandler.deposit now es accountId amount)
     = Rejected InvalidAmount <-> amount <= 0)
  /\ (amount <= 0 ->
      CommandHandler.deposit now es accountId amount
      = (Rejected InvalidAmount, es))
  /\ (0 < amount ->
      exists event,
        CommandHandler.deposit now es accountId amount
        = (Accepted event,
           EventStore.mk (EventStore.events es ++ [event])
                         (EventStore.eventId es + 1))
        /\ Event.type event = "MoneyDeposited"%string
        /\ Event.aggregateId event = accountId
        /\ Data.amount (Event.data event) = Some amount).
Proof.
  unfold CommandHandler.deposit, InvalidAmount.
  destruct (Z.leb_spec amount 0) as [Hle|Hgt]; simpl.
  - split; [tauto|]. split; [reflexivity|lia].
  - split; [split; [discriminate|lia]|]. split; [lia|].
    intros _. eexists. split; [reflexivity|]. repeat split.
Qed.

Lemma deposit_cases_witness :
  CommandHandler.deposit "t4" es_sample "ACC001" (-10)
  = (Rejected InvalidAmount, es_sample)
  /\ exists event,
       CommandHandler.deposit "t4" es_sample "ACC001" 50
       = (Accepted event,
          EventStore.mk (EventStore.events es_sample ++ [event])
                        (EventStore.eventId es_sample + 1))
       /\ Event.type event = "MoneyDeposited"%string
       /\ Event.aggregateId event = "ACC001"%string
       /\ Data.amount (Event.data event) = Some 50.
Proof.
  split.
  - apply (proj1 (proj2 (deposit_cases "t4" es_sample "ACC001" (-10)))). lia.
  - apply (proj2 (proj2 (deposit_cases "t4" es_sample "ACC001" 50))). lia.
Defined.

(** C5: [withdraw] first rejects with [InvalidAmount] when
    [amount <= 0]; otherwise it projects the current state of the account
    and rejects with [InsufficientFunds] when [balance < amount]; otherwise
    it appends exactly one [MoneyWithdrawn] event for the account, carrying
    the amount, and returns that event as a success.  A rejection leaves the
    store as it was. *)
Theorem withdraw_cases (now : string) (es : EventStore.t)
    (accountId : string) (amount : Z) :
  let balance :=
    Account.balance (CommandHandler.getAccountState es accountId) in
  (amount <= 0 ->
   CommandHandler.withdraw now es accountId amount
   = (Rejected InvalidAmount, es))
  /\ (0 < amount -> num_ltb balance (Num amount) = true ->
      CommandHandler.withdraw now es accountId amount
      = (Rejected InsufficientFunds, es))
  /\ (0 < amount -> num_ltb balance (Num amount) = false ->
      exists event,
        CommandHandler.withdraw now es accountId amount
        = (Accepted event,
           EventStore.mk (EventStore.events es ++ [event])
                         (EventStore.eventId es + 1))
        /\ Event.type event = "MoneyWithdrawn"%string
        /\ Event.aggregateId event = accountId
        /\ Data.amount (Event.data event) = Some amount).
Proof.
  unfold CommandHandler.withdraw, InvalidAmount, InsufficientFunds.
  cbv zeta.
  destruct (Z.leb_spec amount 0) as [Hle|Hgt].
  - split; [reflexivity|]. split; intros; lia.
  - split; [lia|]. split; intros _ Hb; rewrite Hb; [reflexivity|].
    simpl. eexists. split; [reflexivity|]. repeat split.
Qed.

(** Scenario C of the specification (withdraw 200 from a balance of 120),
    and the two other branches. *)
Lemma withdraw_cases_witness :
  Account.balance (CommandHandler.getAccountState es_sample "ACC001") = Num 120
  /\ CommandHandler.withdraw "t4" es_sample "ACC001" 200
     = (Rejected InsufficientFunds, es_sample)
  /\ CommandHandler.withdraw "t4" es_sample "ACC001" 0
     = (Rejected InvalidAmount, es_sample)
  /\ exists event,
       CommandHandler.withdraw "t4" es_sample "ACC001" 120
       = (Accepted event,
          EventStore.mk (EventStore.events es_sample ++ [event])
                        (EventStore.eventId es_sample + 1))
       /\ Event.type event = "MoneyWithdrawn"%string
       /\ Event.aggregateId event = "ACC001"%string
       /\ Data.amount (Event.data event) = Some 120.
Proof.
  split; [reflexivity|]. split; [|split].
  - apply (proj1 (proj2 (withdraw_cases "t4" es_sample "ACC001" 200)));
      [lia|reflexivity].
  - apply (proj1 (withdraw_cases "t4" es_sample "ACC001" 0)). lia.
  - apply (proj2 (proj2 (withdraw_cases "t4" es_sample "ACC001" 120)));
      [lia|reflexivity].
Defined.

Lemma handle_rejected_same_store (now : string) (c : Command)
    (es es' : EventStore.t) (r : Result) :
  handle now c es = (r, es') -> success r = false -> es' = es.
Proof.
  destruct c as [a o b|a n|a n|a]; simpl;
    unfold CommandHandler.createAccount, CommandHandler.deposit,
      CommandHandler.withdraw, CommandHandler.closeAccount;
    simpl.
  - intros [= <- <-]. discriminate.
  - destruct (n <=? 0); intros [= <- <-]; [reflexivity|discriminate].
  - destruct (n <=? 0); [intros [= <- <-]; reflexivity|].
    destruct (num_ltb _ _); intros [= <- <-]; [reflexivity|discriminate].
  - intros [= <- <-]. discriminate.
Qed.

(** C3: when handling a command returns a rejection ([success: false]),
    the store after the call is the store before it: the log, the events of
    the command's entity and the counter are unchanged. *)
Theorem rejection_appends_nothing (now : string) (c : Command)
    (es es' : EventStore.t) (r : Result) :
  handle now c es = (r, es') ->
  success r = false ->
  es' = es
  /\ EventStore.getAllEvents es' = EventStore.getAllEvents es
  /\ EventStore.getEventsForAggregate es' (entityOf c)
     = EventStore.getEventsForAggregate es (entityOf c).
Proof.
  intros Hh Hr.
  rewrite (handle_rejected_same_store now c es es' r Hh Hr). repeat split.
Qed.

Lemma rejection_appends_nothing_witness :
  let c := Withdraw "ACC001" 200 in
  success (fst (handle "t4" c es_sample)) = false
  /\ snd (handle "t4" c es_sample) = es_sample.
Proof.
  split; [reflexivity|].
  apply (rejection_appends_nothing "t4" (Withdraw "ACC001" 200) es_sample
           (snd (handle "t4" (Withdraw "ACC001" 200) es_sample))
           (fst (handle "t4" (Withdraw "ACC001" 200) es_sample)));
    reflexivity.
Defined.

(** ** No overdraft *)

(** C2 does not hold of the code: [createAccount] takes any initial
    balance.  Creating ACC001 with an initial balance of -100 is accepted,
    and the balance projected from the account's events is then -100, below
    zero. *)
Theorem negative_initial_balance_accepted :
  let c := CreateAccount "ACC001" "John Doe" (Some (-100)) in
  let es := snd (handle "t1" c EventStore.new) in
  success (fst (handle "t1" c EventStore.new)) = true
  /\ accepted_run [("t1"%string, c)] es
  /\ Account.balance (CommandHandler.getAccountState es "ACC001")
     = Num (-100).
Proof.
  cbv zeta. split; [reflexivity|]. split; [|reflexivity].
  apply (accepted_snoc [] EventStore.new _ "t1"
           (CreateAccount "ACC001" "John Doe" (Some (-100)))
           (fst (handle "t1" (CreateAccount "ACC001" "John Doe" (Some (-100)))
                   EventStore.new)));
    [apply accepted_nil|reflexivity|reflexivity].
Qed.



(** ** Further properties of the event store *)

(** X1: The event [append] returns carries the arguments and the old counter;
    it is stored last in the log, a read of its aggregate returns the
    earlier events of that aggregate followed by it, and a read of any other
    aggregate is what it was. *)
Theorem append_then_read (now : string) (es : EventStore.t)
    (eventType aggregateId : string) (data : Data.t) :
  let event := fst (EventStore.append now es eventType aggregateId data) in
  let es' := snd (EventStore.append now es eventType aggregateId data) in
  event = Event.mk (EventStore.eventId es) eventType aggregateId data now
  /\ EventStore.getAllEvents es' = EventStore.getAllEvents es ++ [event]
  /\ EventStore.getEventsForAggregate es' aggregateId
     = EventStore.getEventsForAggregate es aggregateId ++ [event]
  /\ forall other, other <> aggregateId ->
       EventStore.getEventsForAggregate es' other
       = EventStore.getEventsForAggregate es other.
Proof.
  cbv zeta. split; [reflexivity|]. split; [reflexivity|].
  split.
  - pose proof (getEventsForAggregate_append now es eventType aggregateId
                  data aggregateId) as H.
    simpl in H. rewrite String.eqb_refl in H. exact H.
  - intros other Hne.
    pose proof (getEventsForAggregate_append now es eventType aggregateId
                  data other) as H.
    simpl in H. apply not_eq_sym in Hne.
    apply String.eqb_neq in Hne. rewrite Hne, app_nil_r in H. exact H.
Qed.

(** X2: In a store reached by calls of [append], the ids are 1, 2, 3, ... in
    the order of the log, without gaps: the event at index [i] has id
    [i + 1], and the counter is the number of events plus one. *)
Theorem ids_are_positions (es : EventStore.t) :
  reachable es ->
  EventStore.eventId es
  = Z.of_nat (length (EventStore.getAllEvents es)) + 1
  /\ forall (i : nat) (e : Event.t),
       nth_error (EventStore.getAllEvents es) i = Some e ->
       Event.id e = Z.of_nat i + 1.
Proof.
  unfold EventStore.getAllEvents.
  induction 1 as [|es now ty ag d Hreach [IHid IHnth]]; simpl.
  - split; [reflexivity|]. intros i e Hi. destruct i; discriminate.
  - split.
    + rewrite length_app. simpl. lia.
    + intros i e Hi.
      destruct (Nat.lt_ge_cases i (length (EventStore.events es)))
        as [Hlt|Hge].
      * rewrite nth_error_app1 in Hi by assumption. now apply IHnth.
      * rewrite nth_error_app2 in Hi by assumption.
        destruct (i - length (EventStore.events es))%nat as [|k] eqn:Hk;
          simpl in Hi.
        -- injection Hi as <-. simpl. lia.
        -- destruct k; discriminate.
Qed.

Lemma ids_are_positions_witness :
  EventStore.eventId es_sample = 4
  /\ exists e, nth_error (EventStore.getAllEvents es_sample) 2 = Some e
               /\ Event.id e = 3.
Proof.
  split.
  - exact (proj1 (ids_are_positions es_sample reachable_es_sample)).
  - eexists. split; [reflexivity|].
    apply (proj2 (ids_are_positions es_sample reachable_es_sample) 2%nat).
    reflexivity.
Defined.

(** ** Further properties of the projection *)

(** X3: Replay can resume from a snapshot: when a log has grown by the events
    [added], the current state of an account is the earlier state with the
    account's events among [added] folded in. *)
Theorem replay_from_snapshot (es es' : EventStore.t) (added : list Event.t)
    (accountId : string) :
  EventStore.events es' = EventStore.events es ++ added ->
  CommandHandler.getAccountState es' accountId
  = Account.loadFromHistory (CommandHandler.getAccountState es accountId)
      (filter (fun e => String.eqb (Event.aggregateId e) accountId) added).
Proof.
  intros Hgrow. unfold CommandHandler.getAccountState.
  rewrite !getEventsForAggregate_filter, Hgrow, filter_app.
  apply loadFromHistory_app.
Qed.

Lemma replay_from_snapshot_witness :
  CommandHandler.getAccountState es_sample "ACC001"
  = Account.loadFromHistory
      (CommandHandler.getAccountState
         (snd (handle "t1" (CreateAccount "ACC001" "John Doe" (Some 100))
                 EventStore.new)) "ACC001")
      [Event.mk 2 "MoneyDeposited" "ACC001" (Data.amountOf 50) "t2";
       Event.mk 3 "MoneyWithdrawn" "ACC001" (Data.amountOf 30) "t3"].
Proof.
  apply (replay_from_snapshot
           (snd (handle "t1" (CreateAccount "ACC001" "John Doe" (Some 100))
                   EventStore.new))
           es_sample
           [Event.mk 2 "MoneyDeposited" "ACC001" (Data.amountOf 50) "t2";
            Event.mk 3 "MoneyWithdrawn" "ACC001" (Data.amountOf 30) "t3"]
           "ACC001").
  reflexivity.
Defined.

(** ** Further properties of the command handlers *)

Lemma id_loadFromHistory (a : Account.t) (l : list Event.t) :
  Account.id (Account.loadFromHistory a l) = Account.id a.
Proof.
  revert a. induction l as [|e l IH]; intros a; simpl; [reflexivity|].
  now rewrite IH, id_apply.
Qed.

Lemma id_getAccountState (es : EventStore.t) (accountId : string) :
  Account.id (CommandHandler.getAccountState es accountId) = accountId.
Proof.
  unfold CommandHandler.getAccountState. now rewrite id_loadFromHistory.
Qed.

Lemma handle_outcome (now : string) (c : Command) (es : EventStore.t) :
  (exists msg, handle now c es = (Rejected msg, es))
  \/ (exists ty d,
        handle now c es
        = (Accepted (Event.mk (EventStore.eventId es) ty (entityOf c) d now),
           snd (EventStore.append now es ty (entityOf c) d))
        /\ builtByHandler
             (Event.mk (EventStore.eventId es) ty (entityOf c) d now)).
Proof.
  destruct c as [a o b|a n|a n|a]; simpl.
  - right. exists "AccountCreated"%string, (Data.created o (or_zero b)).
    split; [reflexivity|]. left. split; [reflexivity|]. now eexists; eexists.
  - unfold CommandHandler.deposit.
    destruct (Z.leb_spec n 0) as [Hle|Hgt]; [left; now eexists|].
    right. exists "MoneyDeposited"%string, (Data.amountOf n).
    split; [reflexivity|]. right; left. split; [reflexivity|].
    exists n. now split.
  - unfold CommandHandler.withdraw.
    destruct (Z.leb_spec n 0) as [Hle|Hgt]; [left; now eexists|].
    cbv zeta. destruct (num_ltb _ _); [left; now eexists|].
    right. exists "MoneyWithdrawn"%string, (Data.amountOf n).
    split; [reflexivity|]. right; right; left. split; [reflexivity|].
    exists n. now split.
  - right. exists "AccountClosed"%string, Data.empty.
    split; [reflexivity|]. right; right; right. now split.
Qed.

(** X4: An accepted command appended exactly one event, the one it returns:
    that event has the old counter as id, the account of the command as
    aggregate and the time of the call, it is the last of the log and the
    last of the account's events, and the counter went up by one. *)
Theorem accepted_command_appends_its_event (now : string) (c : Command)
    (es es' : EventStore.t) (r : Result) :
  handle now c es = (r, es') ->
  success r = true ->
  exists e,
    r = Accepted e
    /\ Event.id e = EventStore.eventId es
    /\ Event.aggregateId e = entityOf c
    /\ Event.timestamp e = now
    /\ EventStore.getAllEvents es' = EventStore.getAllEvents es ++ [e]
    /\ EventStore.eventId es' = EventStore.eventId es + 1
    /\ EventStore.getEventsForAggregate es' (entityOf c)
       = EventStore.getEventsForAggregate es (entityOf c) ++ [e].
Proof.
  intros Hh Hr.
  destruct (handle_outcome now c es) as [[msg Hrej]|(ty & d & Hacc & _)].
  - rewrite Hrej in Hh. injection Hh as <- <-. discriminate Hr.
  - rewrite Hacc in Hh. injection Hh as <- <-.
    eexists. split; [reflexivity|]. repeat (split; [reflexivity|]).
    pose proof (getEventsForAggregate_append now es ty (entityOf c) d
                  (entityOf c)) as H.
    simpl in H. rewrite String.eqb_refl in H. exact H.
Qed.

Lemma accepted_command_appends_its_event_witness :
  exists e,
    fst (handle "t4" (Deposit "ACC001" 5) es_sample) = Accepted e
    /\ Event.id e = 4
    /\ EventStore.getAllEvents (snd (handle "t4" (Deposit "ACC001" 5) es_sample))
       = EventStore.getAllEvents es_sample ++ [e].
Proof.
  destruct (accepted_command_appends_its_event "t4" (Deposit "ACC001" 5)
              es_sample
              (snd (handle "t4" (Deposit "ACC001" 5) es_sample))
              (fst (handle "t4" (Deposit "ACC001" 5) es_sample))
              eq_refl eq_refl)
    as (e & He & Hid & _ & _ & Hall & _).
  exists e. split; [exact He|]. split; [exact Hid|exact Hall].
Defined.

(** X5: A command touches its own account only: for any other account, the
    events read and the state projected are the same before and after the
    call, whether the command was accepted or not. *)
Theorem command_leaves_other_accounts (now : string) (c : Command)
    (es : EventStore.t) (other : string) :
  other <> entityOf c ->
  EventStore.getEventsForAggregate (snd (handle now c es)) other
  = EventStore.getEventsForAggregate es other
  /\ CommandHandler.getAccountState (snd (handle now c es)) other
     = CommandHandler.getAccountState es other.
Proof.
  intros Hne.
  assert (Hev : EventStore.getEventsForAggregate (snd (handle now c es)) other
                = EventStore.getEventsForAggregate es other).
  { destruct (handle_outcome now c es) as [[msg Hrej]|(ty & d & Hacc & _)].
    - now rewrite Hrej.
    - rewrite Hacc.
      pose proof (getEventsForAggregate_append now es ty (entityOf c) d
                    other) as H.
      simpl in H. simpl. rewrite H.
      apply not_eq_sym, String.eqb_neq in Hne.
      now rewrite Hne, app_nil_r. }
  split; [exact Hev|].
  unfold CommandHandler.getAccountState. now rewrite Hev.
Qed.

Lemma command_leaves_other_accounts_witness :
  CommandHandler.getAccountState
    (snd (handle "t4" (CreateAccount "ACC002" "Jane Roe" None) es_sample))
    "ACC001"
  = CommandHandler.getAccountState es_sample "ACC001".
Proof.
  apply (command_leaves_other_accounts "t4"
           (CreateAccount "ACC002" "Jane Roe" None) es_sample "ACC001").
  simpl. discriminate.
Defined.

(** X6: [createAccount] checks nothing and always succeeds.  Whatever the
    account's history, afterwards the account is active, its owner is the
    one given, its balance is the initial balance given ([0] when omitted):
    the earlier owner and balance are overwritten.  Only the version keeps
    counting. *)
Theorem createAccount_overwrites (now : string) (es : EventStore.t)
    (accountId owner : string) (initialBalance : option Z) :
  let before := CommandHandler.getAccountState es accountId in
  let (r, es') :=
    CommandHandler.createAccount now es accountId owner initialBalance in
  success r = true
  /\ CommandHandler.getAccountState es' accountId
     = Account.mk accountId
         (Num (match initialBalance with Some b => b | None => 0 end))
         (Some owner) true (Account.version before + 1).
Proof.
  cbv zeta. unfold CommandHandler.createAccount.
  pose proof (getAccountState_append now es "AccountCreated" accountId
                (Data.created owner (or_zero initialBalance)) accountId) as H.
  destruct (EventStore.append now es "AccountCreated" accountId
              (Data.created owner (or_zero initialBalance))) as [ev es']
    eqn:Happ.
  split; [reflexivity|].
  rewrite H, String.eqb_refl.
  injection Happ as <- _.
  unfold Account.apply. simpl. rewrite id_getAccountState.
  do 2 f_equal. destruct initialBalance as [b|]; simpl; [|reflexivity].
  destruct (Z.eqb_spec b 0) as [->|Hb]; [reflexivity|].
  destruct (Z.eqb_spec b 0); [contradiction|reflexivity].
Qed.

(** X7: [closeAccount] checks nothing and always succeeds, also for an account
    that is closed already or was never created.  Afterwards the account is
    inactive; owner and balance are what they were, the version is one
    more. *)
Theorem closeAccount_deactivates (now : string) (es : EventStore.t)
    (accountId : string) :
  let before := CommandHandler.getAccountState es accountId in
  let (r, es') := CommandHandler.closeAccount now es accountId in
  success r = true
  /\ CommandHandler.getAccountState es' accountId
     = Account.mk accountId (Account.balance before) (Account.owner before)
         false (Account.version before + 1).
Proof.
  cbv zeta. unfold CommandHandler.closeAccount.
  pose proof (getAccountState_append now es "AccountClosed" accountId
                Data.empty accountId) as H.
  destruct (EventStore.append now es "AccountClosed" accountId Data.empty)
    as [ev es'] eqn:Happ.
  split; [reflexivity|].
  rewrite H, String.eqb_refl. injection Happ as <- _.
  unfold Account.apply. simpl. now rewrite id_getAccountState.
Qed.



Lemma no_events_filter (es : EventStore.t) (accountId : string) :
  (forall e, In e (EventStore.events es) -> Event.aggregateId e <> accountId) ->
  EventStore.getEventsForAggregate es accountId = [].
Proof.
  intros Hnone. rewrite getEventsForAggregate_filter.
  induction (EventStore.events es) as [|e l IH]; [reflexivity|].
  simpl. unfold belongsTo at 1.
  destruct (String.eqb_spec (Event.aggregateId e) accountId) as [Heq|Hne].
  - exfalso. apply (Hnone e); [now left|assumption].
  - apply IH. intros e' He'. apply Hnone. now right.
Qed.

(** X9: An account that was never created is not an error for the handlers:
    a positive deposit to it is accepted, and leaves an inactive account
    without owner holding the amount; every withdrawal from it is rejected,
    a positive one for insufficient funds. *)
Theorem commands_on_unknown_account (now : string) (es : EventStore.t)
    (accountId : string) (amount : Z) :
  (forall e, In e (EventStore.getAllEvents es) ->
             Event.aggregateId e <> accountId) ->
  0 < amount ->
  success (fst (CommandHandler.deposit now es accountId amount)) = true
  /\ CommandHandler.getAccountState
       (snd (CommandHandler.deposit now es accountId amount)) accountId
     = Account.mk accountId (Num amount) (Some EmptyString) false 1
  /\ CommandHandler.withdraw now es accountId amount
     = (Rejected InsufficientFunds, es).
Proof.
  intros Hnone Hpos. apply no_events_filter in Hnone.
  assert (Hz : CommandHandler.getAccountState es accountId
               = zeroState accountId).
  { unfold CommandHandler.getAccountState. now rewrite Hnone. }
  assert (Hle : (amount <=? 0) = false) by (apply Z.leb_gt; lia).
  unfold CommandHandler.deposit, CommandHandler.withdraw. rewrite Hle.
  split; [reflexivity|]. split.
  - pose proof (getAccountState_append now es "MoneyDeposited" accountId
                  (Data.amountOf amount) accountId) as H.
    simpl in H. simpl. rewrite H, String.eqb_refl, Hz. reflexivity.
  - cbv zeta. rewrite Hz. simpl.
    assert (Hlt : (0 <? amount) = true) by (apply Z.ltb_lt; lia).
    now rewrite Hlt.
Qed.

Lemma commands_on_unknown_account_witness :
  CommandHandler.getAccountState
    (snd (CommandHandler.deposit "t4" es_sample "ACC002" 7)) "ACC002"
  = Account.mk "ACC002" (Num 7) (Some EmptyString) false 1
  /\ CommandHandler.withdraw "t4" es_sample "ACC002" 7
     = (Rejected InsufficientFunds, es_sample).
Proof.
  assert (Hnone : forall e, In e (EventStore.getAllEvents es_sample) ->
                            Event.aggregateId e <> "ACC002"%string).
  { intros e He. simpl in He.
    destruct He as [<-|[<-|[<-|[]]]]; simpl; discriminate. }
  assert (Hpos : 0 < 7) by lia.
  destruct (commands_on_unknown_account "t4" es_sample "ACC002" 7 Hnone Hpos)
    as (_ & Hdep & Hwd).
  split; [exact Hdep|exact Hwd].
Defined.

(** ** Invariants of the stores that commands leave *)

Lemma commanded_reachable (es : EventStore.t) : commanded es -> reachable es.
Proof.
  induction 1; [apply reachable_new|now apply reachable_handle].
Qed.









(** A payload with a property missing does reach [NaN]: the guards of the
    handlers, not [apply], are what keeps balances defined. *)
Example deposit_without_amount_gives_NaN :
  Account.balance
    (Account.loadFromHistory (Account.new "ACC001")
       [ev_created; Event.mk 2 "MoneyDeposited" "ACC001" Data.empty "t2"])
  = NaN.
Proof. reflexivity. Qed.



(** ** The HTTP adapter: routing *)

Lemma stripPrefix_Some (p s rest : string) :
  stripPrefix p s = Some rest -> s = (p ++ rest)%string.
Proof.
  revert s. induction p as [|a p IH]; intros s; simpl.
  - now intros [= ->].
  - destruct s as [|b s]; [discriminate|].
    destruct (Ascii.eqb_spec a b) as [->|Hne]; [|discriminate].
    intros H. now rewrite (IH _ H).
Qed.

Lemma stripPrefix_append (p s : string) :
  stripPrefix p (p ++ s)%string = Some s.
Proof.
  induction p as [|a p IH]; simpl; [reflexivity|].
  now rewrite Ascii.eqb_refl.
Qed.

Lemma split_slash_nonempty (s : string) :
  exists seg segs, split_slash s = seg :: segs.
Proof.
  induction s as [|c s (seg & segs & IH)]; simpl.
  - now eexists; eexists.
  - destruct (Ascii.eqb c "/"); [now eexists; eexists|].
    rewrite IH. now eexists; eexists.
Qed.

Lemma split_slash_segment (seg tail : string) :
  split_slash seg = [seg] ->
  (tail = EmptyString
   \/ exists t, tail = String "/" t) ->
  exists segs, split_slash (seg ++ tail)%string = seg :: segs.
Proof.
  intros Hseg Htail. revert Hseg.
  induction seg as [|c seg IH]; simpl.
  - intros _. destruct Htail as [->|[t ->]]; simpl; now eexists.
  - destruct (Ascii.eqb c "/"); [discriminate|].
    destruct (split_slash_nonempty seg) as (h & hs & Hsplit).
    rewrite Hsplit. intros [= -> ->].
    destruct (IH Hsplit) as [segs ->]. now eexists.
Qed.

(** X13: On both paths of [handleRequest] that read [pathname.split('/')[2]],
    that index exists: the account identifier passed on is a string, never
    [undefined]. *)
Theorem segment2_defined (pathname : string) :
  matchesPrefixDotPlus "/events/" pathname = true
  \/ matchesPrefixDotPlus "/account/" pathname = true ->
  exists a, nth_error (split_slash pathname) 2 = Some a
            /\ segment2 pathname = a.
Proof.
  unfold matchesPrefixDotPlus, segment2.
  intros [H|H].
  - destruct (stripPrefix "/events/" pathname) as [rest|] eqn:Hp;
      [|discriminate].
    apply stripPrefix_Some in Hp. subst pathname.
    destruct (split_slash_nonempty rest) as (seg & segs & Hs).
    simpl. rewrite Hs. now eexists.
  - destruct (stripPrefix "/account/" pathname) as [rest|] eqn:Hp;
      [|discriminate].
    apply stripPrefix_Some in Hp. subst pathname.
    destruct (split_slash_nonempty rest) as (seg & segs & Hs).
    simpl. rewrite Hs. now eexists.
Qed.

Lemma segment2_defined_witness :
  exists a, nth_error (split_slash "/account/ACC001") 2 = Some a
            /\ segment2 "/account/ACC001" = a.
Proof.
  apply (segment2_defined "/account/ACC001"). right. reflexivity.
Defined.

(** X14: The two GET routes with an identifier read the third path segment
    only.  For an identifier [a] without a slash, [GET /account/a] answers
    200 with the projected state of [a], and [GET /events/a] answers 200
    with the events of [a]; whatever follows a further slash is ignored.
    Neither changes the store. *)
Theorem get_routes_read_third_segment (now : string) (es : EventStore.t)
    (a tail : string) (b : ParsedBody) :
  split_slash a = [a] ->
  (tail = EmptyString \/ exists t, tail = String "/" t) ->
  (matchesPrefixDotPlus "/account/" ("/account/" ++ a ++ tail) = true ->
   EventSourcingServer.handleRequest now es
     (mkRequest "GET" ("/account/" ++ a ++ tail) b)
   = (mkResponse 200
        (Some (AccountBody (toJSON (CommandHandler.getAccountState es a)))),
      es))
  /\ (matchesPrefixDotPlus "/events/" ("/events/" ++ a ++ tail) = true ->
      EventSourcingServer.handleRequest now es
        (mkRequest "GET" ("/events/" ++ a ++ tail) b)
      = (mkResponse 200
           (Some (EventsBody (EventStore.getEventsForAggregate es a))),
         es)).
Proof.
  intros Hseg Htail.
  destruct (split_slash_segment a tail Hseg Htail) as [segs Hsplit].
  assert (Hacc : segment2 ("/account/" ++ a ++ tail) = a).
  { unfold segment2. simpl. now rewrite Hsplit. }
  assert (Hev : segment2 ("/events/" ++ a ++ tail) = a).
  { unfold segment2. simpl. now rewrite Hsplit. }
  split; intros Hm; unfold EventSourcingServer.handleRequest;
    cbn [method pathname parsed].
  - rewrite Hm, Hacc. reflexivity.
  - rewrite Hm, Hev.
    destruct (a ++ tail)%string eqn:Hat; [discriminate Hm|reflexivity].
Qed.

Lemma get_routes_read_third_segment_witness :
  EventSourcingServer.handleRequest "t4" es_sample
    (mkRequest "GET" "/account/ACC001/history" InvalidJSON)
  = (mkResponse 200
       (Some (AccountBody
                (mkAccountJSON "ACC001" (Some "John Doe"%string) (Num 120)
                   true 3))),
     es_sample).
Proof.
  apply (proj1 (get_routes_read_third_segment "t4" es_sample
                  "ACC001" "/history" InvalidJSON eq_refl
                  (or_intror (ex_intro _ "history"%string eq_refl)))).
  reflexivity.
Defined.

(** ** The HTTP adapter: requests and the store *)

Lemma falsy_string_false (v : option string) :
  falsy_string v = false -> v = Some (str v) /\ str v <> EmptyString.
Proof.
  destruct v as [s|]; simpl; [|discriminate].
  intros H. apply String.eqb_neq in H. now split.
Qed.

Lemma falsy_number_false (v : option Z) :
  falsy_number v = false -> v = Some (num v) /\ num v <> 0.
Proof.
  destruct v as [z|]; simpl; [|discriminate].
  intros H. apply Z.eqb_neq in H. now split.
Qed.

(** What a request does to the store, as a command: nothing, or what one
    command for a non-empty account identifier does; and the response that
    goes with it. *)
Lemma handleRequest_as_command (now : string) (es : EventStore.t)
    (req : Request) :
  (snd (EventSourcingServer.handleRequest now es req) = es
   /\ (method req = "POST"%string ->
       statusCode (fst (EventSourcingServer.handleRequest now es req)) = 404
       \/ statusCode (fst (EventSourcingServer.handleRequest now es req)) = 400
          /\ exists msg,
               body (fst (EventSourcingServer.handleRequest now es req))
               = Some (ErrorBody msg)))
  \/ (exists c,
        method req = "POST"%string
        /\ entityOf c <> EmptyString
        /\ snd (EventSourcingServer.handleRequest now es req)
           = snd (handle now c es)
        /\ body (fst (EventSourcingServer.handleRequest now es req))
           = Some (ResultBody (fst (handle now c es)))
        /\ statusCode (fst (EventSourcingServer.handleRequest now es req))
           = if success (fst (handle now c es))
             then match c with CreateAccount _ _ _ => 201 | _ => 200 end
             else 400).
Proof.
  unfold EventSourcingServer.handleRequest.
  destruct (String.eqb_spec (method req) "OPTIONS") as [Ho|_];
    [left; split; [reflexivity|rewrite Ho; discriminate]|].
  destruct (String.eqb_spec (method req) "GET") as [Hg|_];
    [left; split; [|rewrite Hg; discriminate]|].
  { repeat match goal with
           | |- context [if ?b then _ else _] => destruct b
           end; reflexivity. }
  destruct (String.eqb_spec (method req) "POST") as [Hp|Hp];
    [|left; split; [reflexivity|contradiction]].
  destruct (parsed req) as [|data];
    [left; split; [reflexivity|intros _; right; split; [reflexivity|now eexists]]|].
  destruct (String.eqb (pathname req) "/account/create").
  { unfold EventSourcingServer.handleCreateAccount.
    destruct (falsy_string (PostData.accountId data)) eqn:Ha;
      [left; split; [reflexivity|intros _; right; split; [reflexivity|now eexists]]|].
    destruct (falsy_string (PostData.owner data)) eqn:Hw;
      [left; split; [reflexivity|intros _; right; split; [reflexivity|now eexists]]|].
    right.
    exists (CreateAccount (str (PostData.accountId data))
              (str (PostData.owner data))
              (Some (or_zero (PostData.initialBalance data)))).
    split; [exact Hp|].
    split; [exact (proj2 (falsy_string_false _ Ha))|].
    simpl. repeat split. }
  destruct (String.eqb (pathname req) "/account/deposit").
  { unfold EventSourcingServer.handleDeposit.
    destruct (falsy_string (PostData.accountId data)) eqn:Ha;
      [left; split; [reflexivity|intros _; right; split; [reflexivity|now eexists]]|].
    destruct (falsy_number (PostData.amount data)) eqn:Hn;
      [left; split; [reflexivity|intros _; right; split; [reflexivity|now eexists]]|].
    right.
    exists (Deposit (str (PostData.accountId data))
              (num (PostData.amount data))).
    split; [exact Hp|].
    split; [exact (proj2 (falsy_string_false _ Ha))|].
    simpl.
    destruct (CommandHandler.deposit now es (str (PostData.accountId data))
                (num (PostData.amount data))) as [r es'].
    simpl. destruct (success r); repeat split. }
  destruct (String.eqb (pathname req) "/account/withdraw").
  { unfold EventSourcingServer.handleWithdraw.
    destruct (falsy_string (PostData.accountId data)) eqn:Ha;
      [left; split; [reflexivity|intros _; right; split; [reflexivity|now eexists]]|].
    destruct (falsy_number (PostData.amount data)) eqn:Hn;
      [left; split; [reflexivity|intros _; right; split; [reflexivity|now eexists]]|].
    right.
    exists (Withdraw (str (PostData.accountId data))
              (num (PostData.amount data))).
    split; [exact Hp|].
    split; [exact (proj2 (falsy_string_false _ Ha))|].
    simpl.
    destruct (CommandHandler.withdraw now es (str (PostData.accountId data))
                (num (PostData.amount data))) as [r es'].
    simpl. destruct (success r); repeat split. }
  destruct (String.eqb (pathname req) "/account/close").
  { unfold EventSourcingServer.handleCloseAccount.
    destruct (falsy_string (PostData.accountId data)) eqn:Ha;
      [left; split; [reflexivity|intros _; right; split; [reflexivity|now eexists]]|].
    right.
    exists (CloseAccount (str (PostData.accountId data))).
    split; [exact Hp|].
    split; [exact (proj2 (falsy_string_false _ Ha))|].
    simpl. repeat split. }
  left. split; [reflexivity|intros _; now left].
Qed.


(** X16: The running server never holds a store that commands could not have
    produced, and it never stores an event for the empty account
    identifier: the handlers answer 400 before calling a command without
    one. *)
Theorem served_is_commanded (es : EventStore.t) :
  served es ->
  commanded es
  /\ forall e, In e (EventStore.getAllEvents es) ->
               Event.aggregateId e <> EmptyString.
Proof.
  induction 1 as [|es now req Hs [IHc IHid]].
  - split; [apply commanded_new|intros e []].
  - destruct (handleRequest_as_command now es req)
      as [[Hsame _]|(c & _ & Hne & Hst & _)].
    + rewrite Hsame. now split.
    + rewrite Hst. split; [now apply commanded_handle|].
      destruct (handle_outcome now c es) as [[msg Hrej]|(ty & d & Hacc & _)].
      * now rewrite Hrej.
      * rewrite Hacc. simpl. unfold EventStore.getAllEvents. simpl.
        intros e He. apply in_app_or in He.
        destruct He as [He|[<-|[]]]; [now apply IHid|exact Hne].
Qed.

Lemma served_after_create :
  served (snd (EventSourcingServer.handleRequest "t1" EventStore.new
                 req_create)).
Proof. apply served_request, served_new. Defined.

Lemma served_is_commanded_witness :
  Event.aggregateId (Event.mk 1 "AccountCreated" "ACC002"
                       (Data.created "Jane Roe" 10) "t1")
  <> EmptyString.
Proof.
  apply (proj2 (served_is_commanded _ served_after_create)).
  left. reflexivity.
Defined.


